(** * pelicanconf.py: the settings document of the site

    The repository is one Python module, [pelicanconf.py], that a static-site
    generator imports once.  The module is a straight-line sequence of
    top-level statements: one [from __future__ import] and a series of
    assignments whose right-hand sides are literal displays (strings, [None],
    booleans, an integer, tuples, lists and one dict).  Executing it leaves a
    module namespace, a finite map from names to values; the names assigned
    by the document are its settings.

    The development embeds the statements of the module with the line they
    stand on, gives them Python's binding semantics (a later binding of a
    name replaces an earlier one), and proves the properties of the document
    and of the namespace it loads to. *)

From Stdlib Require Import ZArith Ascii String.
From stdpp Require Import gmap strings list fin_maps.

Local Open Scope string_scope.

#[local] Set Warnings "-register-all".

(** ** Values *)

(** The Python objects the module builds.  Tuples and lists are kept apart,
    as in the source ([SOCIAL] and [DIRECT_TEMPLATES] are tuples,
    [PLUGINS] and the path settings are lists).  A dict display keeps its
    entries in the order they are written.  [VFeature] is the object that
    [from __future__ import] binds to the imported name. *)
Inductive value : Type :=
  | VNone
  | VBool (b : bool)
  | VInt (n : Z)
  | VStr (s : string)
  | VTuple (items : list value)
  | VList (items : list value)
  | VDict (entries : list (string * value))
  | VFeature (feature : string).

(** ** Statements *)

Inductive stmt : Type :=
  | FromFutureImport (feature : string)
  | Assign (target : string) (rhs : value).

(** A module namespace: what [globals()] is for the module. *)
Abbreviation namespace := (gmap string value).

(** The name a statement binds and the value it binds it to. *)
Definition binding (s : stmt) : string * value :=
  match s with
  | FromFutureImport f => (f, VFeature f)
  | Assign x v => (x, v)
  end.

(** Executing one statement rebinds its name in the namespace. *)
Definition exec_stmt (s : stmt) (g : namespace) : namespace :=
  <[(binding s).1 := (binding s).2]> g.

(** Executing a module body: the statements run top to bottom. *)
Fixpoint exec (p : list stmt) (g : namespace) : namespace :=
  match p with
  | [] => g
  | s :: p' => exec p' (exec_stmt s g)
  end.

(** The same semantics as a relation, one rule per statement form. *)
Inductive step : stmt → namespace → namespace → Prop :=
  | step_import f g :
      step (FromFutureImport f) g (<[f := VFeature f]> g)
  | step_assign x v g :
      step (Assign x v) g (<[x := v]> g).

Inductive runs : list stmt → namespace → namespace → Prop :=
  | runs_nil g : runs [] g g
  | runs_cons s p g g' g'' :
      step s g g' → runs p g' g'' → runs (s :: p) g g''.

(** ** The document *)

(** Lines 47-50: the social widget's links. *)
Definition SOCIAL : list value :=
  [ VTuple [VStr "twitter"; VStr "https://twitter.com/kevinmgivens"];
    VTuple [VStr "linkedin";
            VStr "https://www.linkedin.com/pub/kevin-m-givens/47/844/275"];
    VTuple [VStr "github"; VStr "https://github.com/kevingivens"] ].

(** The statements of [pelicanconf.py], each with the line it starts on.
    Comment lines and blank lines are not statements. *)
Definition pelicanconf : list (nat * stmt) :=
  [ (3, FromFutureImport "unicode_literals");
    (5, Assign "AUTHOR" (VStr "Kevin Givens"));
    (6, Assign "SITENAME" (VStr "Lost in the Lyceum"));
    (7, Assign "SITEURL" (VStr ""));
    (9, Assign "PATH" (VStr "content"));
    (11, Assign "TIMEZONE" (VStr "America/New_York"));
    (13, Assign "DEFAULT_LANG" (VStr "en"));
    (16, Assign "FEED_ALL_ATOM" VNone);
    (17, Assign "FEED_ALL_RSS" VNone);
    (18, Assign "CATEGORY_FEED_ATOM" VNone);
    (19, Assign "TRANSLATION_FEED_ATOM" VNone);
    (20, Assign "AUTHOR_FEED_ATOM" VNone);
    (21, Assign "AUTHOR_FEED_RSS" VNone);
    (31, Assign "DISPLAY_CATEGORIES_ON_MENU" (VBool false));
    (47, Assign "SOCIAL" (VTuple SOCIAL));
    (55, Assign "DISPLAY_CATEGORIES_ON_SIDEBAR" (VBool true));
    (68, Assign "DEFAULT_PAGINATION" (VInt 10));
    (72, Assign "PLUGIN_PATHS" (VList [VStr "../pelican-plugins"]));
    (73, Assign "PLUGINS"
           (VList [VStr "i18n_subsites"; VStr "tipue_search";
                   VStr "liquid_tags.notebook"; VStr "render_math"]));
    (75, Assign "JINJA_ENVIRONMENT"
           (VDict [("extensions", VList [VStr "jinja2.ext.i18n"])]));
    (79, Assign "THEME" (VStr "../pelican-themes/pelican-bootstrap3"));
    (80, Assign "THEME_STATIC_DIR" (VStr "theme"));
    (82, Assign "PATH" (VStr "content"));
    (83, Assign "STATIC_PATHS"
           (VList [VStr "blog"; VStr "pages"; VStr "images"]));
    (84, Assign "ARTICLE_PATHS" (VList [VStr "blog"]));
    (89, Assign "BOOTSTRAP_THEME" (VStr "flatly"));
    (90, Assign "FAVICON" (VStr "theme/images/icons/favicon.ico"));
    (92, Assign "HIDE_SIDEBAR" (VBool false));
    (103, Assign "PYGMENTS_STYLE" (VStr "paraiso-dark"));
    (122, Assign "USE_OPEN_GRAPH" (VBool true));
    (129, Assign "TWITTER_USERNAME" (VStr "kevinmgivens"));
    (130, Assign "TWITTER_WIDGET_ID" (VBool false));
    (133, Assign "DIRECT_TEMPLATES"
            (VTuple [VStr "index"; VStr "categories"; VStr "authors";
                     VStr "archives"; VStr "search"])) ].

(** The module body without the line numbers. *)
Definition program (doc : list (nat * stmt)) : list stmt := doc.*2.

(** Loading a document: its body runs in a namespace [g0] that the
    interpreter prepared (the module's dunder names; none of them is read
    or written by the document). *)
Definition load_in (g0 : namespace) (doc : list (nat * stmt)) : namespace :=
  exec (program doc) g0.

Definition load (doc : list (nat * stmt)) : namespace := load_in ∅ doc.

(** [loads g0 doc g]: a run of the document started in [g0] ends in [g]. *)
Definition loads (g0 : namespace) (doc : list (nat * stmt))
    (g : namespace) : Prop :=
  runs (program doc) g0 g.

(** ** The settings of a document *)

(** The assignments of a document, in order: line, name, value. *)
Definition assignments (doc : list (nat * stmt)) : list (nat * string * value) :=
  omap (λ ls, match ls.2 with
              | Assign x v => Some (ls.1, x, v)
              | FromFutureImport _ => None
              end) doc.

(** The setting names as the document writes them, one per assignment. *)
Definition targets (doc : list (nat * stmt)) : list string :=
  (λ a, a.1.2) <$> assignments doc.

(** The assignments that bind [k]: the line and the value of each. *)
Definition assigned_at (k : string) (doc : list (nat * stmt)) : list (nat * value) :=
  omap (λ a, if decide (a.1.2 = k) then Some (a.1.1, a.2) else None)
       (assignments doc).

(** The setting names, each once ([remove_dups] keeps the last occurrence
    of a repeated name). *)
Definition setting_names (doc : list (nat * stmt)) : list string :=
  remove_dups (targets doc).

(** The value the last statement binding [k] gives it, if any does. *)
Fixpoint final_binding (k : string) (p : list stmt) : option value :=
  match p with
  | [] => None
  | s :: p' =>
      match final_binding k p' with
      | Some v => Some v
      | None => if decide ((binding s).1 = k) then Some (binding s).2 else None
      end
  end.

(** The settings a namespace holds for a document: the namespace restricted
    to the names the document assigns. *)
Definition settings (doc : list (nat * stmt)) (g : namespace) : namespace :=
  filter (λ kv, kv.1 ∈ targets doc) g.

(** The settings of the loaded document as a list, in document order. *)
Definition setting_values (doc : list (nat * stmt)) : list (string * value) :=
  omap (λ k, (k ,.) <$> load doc !! k) (setting_names doc).


(** ** Predicates on values *)

(** Python's truth value of an object: [None], [False], zero, the empty
    string and the empty containers are false, every other object is true. *)
Definition truthy (v : value) : bool :=
  match v with
  | VNone => false
  | VBool b => b
  | VInt n => negb (n =? 0)%Z
  | VStr s => negb (String.eqb s "")
  | VTuple [] | VList [] | VDict [] => false
  | VTuple _ | VList _ | VDict _ => true
  | VFeature _ => true
  end.

Definition is_bool (v : value) : bool :=
  match v with VBool _ => true | _ => false end.

Definition is_str (v : value) : bool :=
  match v with VStr _ => true | _ => false end.

Definition is_empty_str (v : value) : bool :=
  match v with VStr s => String.eqb s "" | _ => false end.

(** A (label, URL) pair: a 2-tuple of strings. *)
Definition is_pair (v : value) : bool :=
  match v with VTuple [VStr _; VStr _] => true | _ => false end.

(** A well-formed link: a (label, URL) pair with both strings non-empty. *)
Definition well_formed_link (v : value) : bool :=
  match v with
  | VTuple [VStr label; VStr url] =>
      negb (String.eqb label "") && negb (String.eqb url "")
  | _ => false
  end.

(** The label of a link. *)
Definition label_of (v : value) : option string :=
  match v with VTuple [VStr label; VStr _] => Some label | _ => None end.

(** The value set of the data model: string, boolean, integer, ordered
    sequence of (label, URL) pairs, mapping of sub-options. *)
Definition in_spec_value_set (v : value) : bool :=
  match v with
  | VStr _ | VBool _ | VInt _ => true
  | VTuple items | VList items => forallb is_pair items
  | VDict _ => true
  | VNone | VFeature _ => false
  end.

(** The value set the document uses: the one above, [None], and ordered
    sequences of strings. *)
Definition in_document_value_set (v : value) : bool :=
  match v with
  | VNone | VStr _ | VBool _ | VInt _ => true
  | VTuple items | VList items => forallb is_pair items || forallb is_str items
  | VDict _ => true
  | VFeature _ => false
  end.

(** Every string that occurs in a value, nested ones and dict keys too. *)
Fixpoint strings_in (v : value) : list string :=
  match v with
  | VStr s => [s]
  | VTuple items | VList items => flat_map strings_in items
  | VDict entries => flat_map (λ e, e.1 :: strings_in e.2) entries
  | VNone | VBool _ | VInt _ | VFeature _ => []
  end.

(** [str.lower] on ASCII text. *)
Definition lower_ascii (c : ascii) : ascii :=
  let n := nat_of_ascii c in
  if Nat.leb 65 n && Nat.leb n 90 then ascii_of_nat (n + 32) else c.

Fixpoint lower (s : string) : string :=
  match s with
  | EmptyString => EmptyString
  | String c s' => String (lower_ascii c) (lower s')
  end.

(** A string that writes a boolean out: [True], [False] in any case. *)
Definition spells_boolean (s : string) : bool :=
  bool_decide (lower s ∈ ["true"; "false"]).

(** [needle in hay] on strings. *)
Definition contains (needle hay : string) : bool :=
  match String.index 0 needle hay with Some _ => true | None => false end.

(** The feed settings of lines 16-21. *)
Definition feed_settings : list string :=
  [ "FEED_ALL_ATOM"; "FEED_ALL_RSS"; "CATEGORY_FEED_ATOM";
    "TRANSLATION_FEED_ATOM"; "AUTHOR_FEED_ATOM"; "AUTHOR_FEED_RSS" ].

(** The options that are switches. *)
Definition boolean_options : list string :=
  [ "DISPLAY_CATEGORIES_ON_MENU"; "DISPLAY_CATEGORIES_ON_SIDEBAR";
    "HIDE_SIDEBAR"; "USE_OPEN_GRAPH"; "TWITTER_WIDGET_ID" ].

(** A document with the statement on line [n] taken out. *)
Definition without_line (n : nat) (doc : list (nat * stmt)) : list (nat * stmt) :=
  filter (λ ls, ls.1 ≠ n) doc.

(** Keys are unique in a document when no name is assigned twice. *)
Definition keys_unique (doc : list (nat * stmt)) : Prop :=
  NoDup (targets doc).


(** The values a document binds all satisfy [P]: the right-hand side of
    every assignment does, and so does every value of the loaded settings. *)
Definition values_within (P : value → bool) (doc : list (nat * stmt)) : Prop :=
  Forall (λ a, P a.2 = true) (assignments doc) ∧
  Forall (λ kv, P kv.2 = true) (setting_values doc).

(** ** The plugin directories *)

(** A plugin is looked up by name in the directories of [PLUGIN_PATHS].
    What those directories hold is a fact of the file system the build runs
    on, so it is a parameter: [has_plugin dir name] tells whether the
    directory [dir] provides the plugin [name]. *)
Definition plugins_available (has_plugin : string → string → bool)
    (g : namespace) : Prop :=
  ∃ dirs names,
    g !! "PLUGIN_PATHS" = Some (VList (VStr <$> dirs)) ∧
    g !! "PLUGINS" = Some (VList (VStr <$> names)) ∧
    Forall (λ name, Exists (λ dir, has_plugin dir name = true) dirs) names.

(** ** Names, imports and comments *)

(** The names a document binds, one per statement, imports included. *)
Definition bound_names (doc : list (nat * stmt)) : list string :=
  (λ s, (binding s).1) <$> program doc.

(** The names a document imports from [__future__]. *)
Definition imports (doc : list (nat * stmt)) : list string :=
  omap (λ ls, match ls.2 with
              | FromFutureImport f => Some f
              | Assign _ _ => None
              end) doc.


(** The assignments the source keeps in comments, with the line of the
    comment: lines that read as an assignment once the [#] is removed.
    (Line 52 starts like one but goes on as prose; the other comments name
    an option without giving it a value.) *)
Definition commented_out : list (nat * stmt) :=
  [ (24, Assign "LINKS"
           (VTuple [VTuple [VStr "Pelican"; VStr "http://getpelican.com/"];
                    VTuple [VStr "Python.org"; VStr "http://python.org/"];
                    VTuple [VStr "Jinja2"; VStr "http://jinja.pocoo.org/"];
                    VTuple [VStr "You can modify those links in your config file";
                            VStr "#"]]));
    (74, Assign "PLUGINS" (VList [VStr "tipue_search"; VStr "render_math"]));
    (85, Assign "STATIC_PATHS" (VList [VStr "images"]));
    (86, Assign "ARTICLE_PATHS" (VList [VStr ""]));
    (100, Assign "RELATIVE_URLS" (VBool true));
    (110, Assign "NOTEBOOK_DIR" (VStr "blog"));
    (112, Assign "SITELOGO" (VStr "./theme/images/icons/favicon.ico"));
    (116, Assign "GITHUB_USER" (VStr "kevingivens"));
    (117, Assign "GITHUB_REPO_COUNT" (VBool false));
    (119, Assign "GITHUB_SHOW_USER_LINK" (VBool false));
    (125, Assign "DISQUS_SITENAME" (VStr "blog-notmyidea")) ].

(** ** Strings and links *)

(** [s.startswith(p)]. *)
Definition startswith (s p : string) : bool := String.prefix p s.

Definition is_upper_ascii (c : ascii) : bool :=
  let n := nat_of_ascii c in Nat.leb 65 n && Nat.leb n 90.

Definition is_lower_ascii (c : ascii) : bool :=
  let n := nat_of_ascii c in Nat.leb 97 n && Nat.leb n 122.

(** [str.isupper] on ASCII text: some letter is upper-case and none is
    lower-case. *)
Definition isupper (s : string) : bool :=
  existsb is_upper_ascii (list_ascii_of_string s) &&
  forallb (λ c, negb (is_lower_ascii c)) (list_ascii_of_string s).

(** The URL of the first link with the given label. *)
Fixpoint link_url (label : string) (links : list value) : option string :=
  match links with
  | [] => None
  | VTuple [VStr l; VStr u] :: rest =>
      if String.eqb l label then Some u else link_url label rest
  | _ :: rest => link_url label rest
  end.

(** The links of a sequence value. *)
Definition links_of (v : value) : option (list value) :=
  match v with VTuple links | VList links => Some links | _ => None end.


(** * Properties *)

(** ** Semantics of loading *)

Lemma step_exec_stmt s g g' : step s g g' ↔ g' = exec_stmt s g.
Proof.
  split.
  - by destruct 1.
  - intros ->. destruct s; constructor.
Qed.

Lemma runs_exec p g g' : runs p g g' ↔ g' = exec p g.
Proof.
  split.
  - induction 1 as [|s p g g1 g2 Hs _ IH]; [done|].
    apply step_exec_stmt in Hs. by subst.
  - intros ->. revert g. induction p as [|s p IH]; intros g; simpl.
    + constructor.
    + econstructor; [by apply step_exec_stmt | apply IH].
Qed.

(** A run of a document exists and is the one [load_in] computes. *)
Lemma loads_load_in g0 doc : loads g0 doc (load_in g0 doc).
Proof. by apply runs_exec. Qed.

Lemma loads_inv g0 doc g : loads g0 doc g → g = load_in g0 doc.
Proof. apply runs_exec. Qed.

(** A name's value after a run is the one its last binding gave it; a name
    the body does not bind keeps the value it had. *)
Lemma exec_lookup p g k :
  exec p g !! k = match final_binding k p with
                  | Some v => Some v
                  | None => g !! k
                  end.
Proof.
  revert g. induction p as [|s p IH]; intros g; simpl; [done|].
  rewrite IH. destruct (final_binding k p); [done|].
  unfold exec_stmt. rewrite lookup_insert. by repeat case_decide.
Qed.

Lemma final_binding_is_Some p k s :
  s ∈ p → (binding s).1 = k → is_Some (final_binding k p).
Proof.
  intros Hin Hk. induction Hin as [s p|s s' p _ IH]; simpl.
  - destruct (final_binding k p); [by eexists|].
    rewrite decide_True by done. by eexists.
  - destruct (IH Hk) as [v ->]. by eexists.
Qed.

Lemma target_is_bound doc k :
  k ∈ targets doc → is_Some (final_binding k (program doc)).
Proof.
  unfold targets, assignments, program.
  intros ([[n x] v] & -> & ([n' s] & Hin & Hs)%list_elem_of_omap)%list_elem_of_fmap.
  simpl in *. destruct s as [|x' v']; simplify_eq.
  apply (final_binding_is_Some _ _ (Assign x v)); [|done].
  by apply (list_elem_of_fmap_2 snd _ (n, Assign x v)).
Qed.

(** The settings a load leaves do not depend on the namespace it started
    in. *)
Lemma settings_load_in doc g1 g2 :
  settings doc (load_in g1 doc) = settings doc (load_in g2 doc).
Proof.
  apply map_eq. intros k. unfold settings, load_in.
  rewrite !map_lookup_filter, !exec_lookup. simpl.
  destruct (decide (k ∈ targets doc)) as [Hk|Hk].
  - by destruct (target_is_bound _ _ Hk) as [v ->].
  - destruct (final_binding k (program doc)); [done|].
    destruct (g1 !! k), (g2 !! k); simpl; by rewrite ?option_guard_False.
Qed.

(** Loading a document again, over what the first load left, changes
    nothing. *)
Lemma reload_idempotent doc : load_in (load doc) doc = load doc.
Proof.
  apply map_eq. intros k. unfold load, load_in. rewrite !exec_lookup.
  by destruct (final_binding k (program doc)).
Qed.

(** ** Unique keys *)

(** C1, as stated, fails: the document does not have unique keys, since
    [PATH] is assigned on line 9 and again on line 82. *)
Lemma pelicanconf_keys_not_unique : ¬ keys_unique pelicanconf.
Proof. unfold keys_unique. intros H. by apply (bool_decide_pack _) in H. Qed.

(** C1, amended: the loaded mapping binds every name once; in the document
    every setting name other than [PATH] is assigned exactly once, [PATH]
    is assigned twice (lines 9 and 82) with the same value, and without
    line 82 the document has unique keys. *)
Theorem keys_unique_except_PATH :
  NoDup (map_to_list (load pelicanconf)).*1 ∧
  Forall (λ k, is_Some (load pelicanconf !! k)) (setting_names pelicanconf) ∧
  Forall (λ k, length (assigned_at k pelicanconf) = 1)
         (filter (λ k, k ≠ "PATH") (setting_names pelicanconf)) ∧
  assigned_at "PATH" pelicanconf = [(9, VStr "content"); (82, VStr "content")] ∧
  keys_unique (without_line 82 pelicanconf).
Proof.
  split_and!.
  - apply NoDup_fst_map_to_list.
  - apply Forall_forall. unfold setting_names. intros k Hk.
    rewrite elem_of_remove_dups in Hk.
    unfold load, load_in. rewrite exec_lookup.
    by destruct (target_is_bound _ _ Hk) as [v ->].
  - compute_done.
  - reflexivity.
  - unfold keys_unique. compute_done.
Qed.

(** ** The value set *)

(** C2, as stated, fails: [FEED_ALL_ATOM] (line 16) is bound to [None],
    which is none of string, boolean, integer, sequence of pairs, mapping. *)
Lemma pelicanconf_values_outside_spec_set :
  load pelicanconf !! "FEED_ALL_ATOM" = Some VNone ∧
  in_spec_value_set VNone = false ∧
  ¬ values_within in_spec_value_set pelicanconf.
Proof.
  split_and!; [done..|].
  intros [H _]. by apply (bool_decide_pack _) in H.
Qed.

(** C2, amended: every value bound to a setting is [None], a string, a
    boolean, an integer, an ordered sequence of strings, an ordered sequence
    of (label, URL) pairs, or a mapping of sub-options.  The settings whose
    value is outside the set of the data model are the six feed settings
    ([None]) and the five sequences of strings. *)
Theorem pelicanconf_values_within_document_set :
  values_within in_document_value_set pelicanconf ∧
  (filter (λ kv, negb (in_spec_value_set kv.2)) (setting_values pelicanconf)).*1
    = (feed_settings ++ ["PLUGIN_PATHS"; "PLUGINS"; "STATIC_PATHS";
                         "ARTICLE_PATHS"; "DIRECT_TEMPLATES"])%list.
Proof.
  split; [split; compute_done | reflexivity].
Qed.

(** ** Feeds *)

(** C3: every feed setting of the document is bound to [None], a false
    value: all six of lines 16-21, which are all the settings of the
    document with [FEED] in their name. *)
Theorem feeds_all_disabled :
  Forall (λ k, load pelicanconf !! k = Some VNone) feed_settings ∧
  Forall (λ k, truthy <$> load pelicanconf !! k = Some false) feed_settings ∧
  filter (λ k, contains "FEED" k = true) (setting_names pelicanconf)
    = feed_settings.
Proof.
  split_and!.
  - repeat constructor.
  - compute_done.
  - reflexivity.
Qed.

(** ** Social links *)

(** C4: the social-link setting is bound to the sequence of lines 47-49,
    every element of which is a (label, URL) pair of non-empty strings, and
    the mapping holds the links in the order they are declared: twitter,
    linkedin, github. *)
Theorem social_links_well_formed :
  load pelicanconf !! "SOCIAL" = Some (VTuple SOCIAL) ∧
  Forall (λ link, well_formed_link link = true) SOCIAL ∧
  (load pelicanconf !! "SOCIAL" ≫= λ v,
     match v with VTuple links => Some (label_of <$> links) | _ => None end)
    = Some [Some "twitter"; Some "linkedin"; Some "github"].
Proof.
  split_and!; [reflexivity | compute_done | reflexivity].
Qed.

(** ** Booleans *)

(** C5: every switch of the document is bound to a literal [True] or
    [False]; these five are the only settings holding a boolean; and no
    string anywhere in a setting's value writes a boolean out. *)
Theorem boolean_options_hold_booleans :
  Forall (λ k, ∃ b, load pelicanconf !! k = Some (VBool b)) boolean_options ∧
  (filter (λ kv, is_bool kv.2 = true) (setting_values pelicanconf)).*1
    = boolean_options ∧
  Forall (λ kv, Forall (λ s, spells_boolean s = false) (strings_in kv.2))
         (setting_values pelicanconf).
Proof.
  split_and!.
  - repeat constructor; by eexists.
  - reflexivity.
  - compute_done.
Qed.

(** ** Loading twice *)

(** Two runs of any document agree on its settings, whatever namespaces
    they started in, and agree altogether when they started in the same. *)
Lemma loads_agree doc g1 g2 m1 m2 :
  loads g1 doc m1 → loads g2 doc m2 →
  settings doc m1 = settings doc m2 ∧ (g1 = g2 → m1 = m2).
Proof.
  intros ->%loads_inv ->%loads_inv. split.
  - apply settings_load_in.
  - by intros ->.
Qed.

(** C6: two runs of the load of [pelicanconf.py] yield identical mappings
    from setting names to values; started in the same namespace they yield
    identical namespaces. *)
Theorem load_deterministic g1 g2 m1 m2 :
  loads g1 pelicanconf m1 → loads g2 pelicanconf m2 →
  settings pelicanconf m1 = settings pelicanconf m2 ∧ (g1 = g2 → m1 = m2).
Proof. apply loads_agree. Qed.

(** Two loads, one in an empty namespace and one in a namespace that
    already names the module, leave the same settings. *)
Lemma load_deterministic_witness :
  loads ∅ pelicanconf (load pelicanconf) ∧
  loads {["__name__" := VStr "pelicanconf"]} pelicanconf
        (load_in {["__name__" := VStr "pelicanconf"]} pelicanconf) ∧
  settings pelicanconf (load pelicanconf)
    = settings pelicanconf
        (load_in {["__name__" := VStr "pelicanconf"]} pelicanconf).
Proof.
  split_and!.
  - apply loads_load_in.
  - apply loads_load_in.
  - exact (proj1 (load_deterministic ∅ {["__name__" := VStr "pelicanconf"]}
                    _ _ (loads_load_in ∅ pelicanconf)
                    (loads_load_in _ pelicanconf))).
Defined.

(** ** Plugins *)

(** Whether the plugins of [PLUGINS] exist depends on what the directory
    of [PLUGIN_PATHS] holds: with every plugin there they do, with an empty
    directory they do not. *)
Lemma plugins_available_depends_on_directory :
  plugins_available (λ _ _, true) (load pelicanconf) ∧
  ¬ plugins_available (λ _ _, false) (load pelicanconf).
Proof.
  split.
  - exists ["../pelican-plugins"],
      ["i18n_subsites"; "tipue_search"; "liquid_tags.notebook"; "render_math"].
    split_and!; [reflexivity..|]. repeat constructor.
  - intros (dirs & names & _ & Hn & Hall).
    change (load pelicanconf !! "PLUGINS")
      with (Some (VList (VStr <$> ["i18n_subsites"; "tipue_search";
                                  "liquid_tags.notebook"; "render_math"]))) in Hn.
    destruct names as [|name names]; [done|].
    apply Forall_cons_1 in Hall as [Hex _].
    apply Exists_exists in Hex as (? & _ & ?). done.
Qed.

(** ** Paths *)

(** C8: [PATH] is assigned twice, on lines 9 and 82, both times the string
    ['content']; the mapping binds it to that string, and the document
    loads to the same mapping with either of the two assignments left out. *)
Theorem PATH_assigned_twice_same_value :
  assigned_at "PATH" pelicanconf = [(9, VStr "content"); (82, VStr "content")] ∧
  load pelicanconf !! "PATH" = Some (VStr "content") ∧
  assigned_at "PATH" (without_line 82 pelicanconf) = [(9, VStr "content")] ∧
  load (without_line 82 pelicanconf) = load pelicanconf ∧
  assigned_at "PATH" (without_line 9 pelicanconf) = [(82, VStr "content")] ∧
  load (without_line 9 pelicanconf) = load pelicanconf.
Proof.
  split_and!; try reflexivity; by vm_compute.
Qed.

(** C9: every directory of [ARTICLE_PATHS] is one of [STATIC_PATHS]: in
    the loaded mapping the set of article paths is a subset of the set of
    static paths. *)
Theorem article_paths_within_static_paths :
  ∃ article static : list string,
    load pelicanconf !! "ARTICLE_PATHS" = Some (VList (VStr <$> article)) ∧
    load pelicanconf !! "STATIC_PATHS" = Some (VList (VStr <$> static)) ∧
    (list_to_set article : gset string) ⊆ list_to_set static.
Proof.
  exists ["blog"], ["blog"; "pages"; "images"].
  split_and!; [reflexivity..|].
  intros d. rewrite !elem_of_list_to_set, list_elem_of_singleton.
  intros ->. apply list_elem_of_here.
Qed.

(** ** The site URL *)

(** C10: [SITEURL] is bound to the empty string; it is the one setting of
    the document bound to an empty string, and it is not one of the social
    links, whose strings are all non-empty. *)
Theorem SITEURL_is_empty :
  load pelicanconf !! "SITEURL" = Some (VStr "") ∧
  (filter (λ kv, is_empty_str kv.2 = true) (setting_values pelicanconf)).*1
    = ["SITEURL"] ∧
  Forall (λ s, s ≠ "") (strings_in (VTuple SOCIAL)).
Proof.
  split_and!; [reflexivity..|compute_done].
Qed.

(** * Further properties of the load *)

#[local] Set Warnings "-clear-no-such-hyp".

(** ** Which binding a name ends up with *)



Lemma final_binding_assigned doc k :
  k ∉ imports doc →
  final_binding k (program doc) = snd <$> last (assigned_at k doc).
Proof.
  unfold imports, assigned_at, assignments, program.
  induction doc as [|[n s] doc IH]; simpl; [done|]. intros Hk.
  destruct s as [f|x v]; simpl in *.
  - apply not_elem_of_cons in Hk as [Hf Hk]. specialize (IH Hk).
    unfold fmap, omap in *. rewrite IH.
    destruct (last _); simpl; [done|]. by rewrite decide_False.
  - specialize (IH Hk). unfold fmap, omap in *. rewrite IH.
    case_decide as Hx; simpl.
    + rewrite last_cons. by destruct (last _).
    + by destruct (last _).
Qed.

(** X1: in any document, a name that is assigned (and not imported) holds
    after the load the value of the last assignment to it, whatever the
    namespace held before and whatever earlier assignments gave it. *)
Theorem last_assignment_wins doc g0 k n v :
  k ∉ imports doc →
  last (assigned_at k doc) = Some (n, v) →
  load_in g0 doc !! k = Some v.
Proof.
  intros Hk Hlast. unfold load_in.
  by rewrite exec_lookup, final_binding_assigned, Hlast.
Qed.

Lemma last_assignment_wins_witness :
  ("PATH" ∉ imports pelicanconf) ∧
  last (assigned_at "PATH" pelicanconf) = Some (82, VStr "content") ∧
  load_in {["PATH" := VStr "output"]} pelicanconf !! "PATH"
    = Some (VStr "content").
Proof.
  assert ("PATH" ∉ imports pelicanconf) as Hk
    by (by apply (bool_decide_unpack _)).
  split_and!; [done | reflexivity |].
  exact (last_assignment_wins pelicanconf _ "PATH" 82 _ Hk eq_refl).
Defined.




(** X4: loading a document over the namespace an earlier load of it left
    changes nothing, whatever namespace the first load started in. *)
Theorem reload_is_noop doc g0 :
  load_in (load_in g0 doc) doc = load_in g0 doc.
Proof.
  apply map_eq. intros k. unfold load_in. rewrite !exec_lookup.
  by destruct (final_binding k (program doc)).
Qed.

(** ** The order of the statements *)





(** ** The import and the names of the settings *)


(** X7: every name the document assigns is written in upper case, the
    form in which a settings module's names are settings; the imported name
    is not. *)
Theorem setting_names_are_upper_case :
  Forall (λ k, isupper k = true) (targets pelicanconf) ∧
  Forall (λ k, isupper k = false) (imports pelicanconf).
Proof. split; compute_done. Qed.

(** ** Options kept in comments *)

(** X8: no assignment that the source keeps in a comment takes effect.
    The names that only a comment assigns are unbound after the load, and
    [PLUGINS], [STATIC_PATHS] and [ARTICLE_PATHS], which a live line
    assigns too, hold the live line's value, not the commented one. *)
Theorem commented_out_has_no_effect :
  Forall (λ ls, load pelicanconf !! (binding ls.2).1 ≠ Some (binding ls.2).2)
         commented_out ∧
  filter (λ k, k ∉ bound_names pelicanconf) (bound_names commented_out)
    = [ "LINKS"; "RELATIVE_URLS"; "NOTEBOOK_DIR"; "SITELOGO"; "GITHUB_USER";
        "GITHUB_REPO_COUNT"; "GITHUB_SHOW_USER_LINK"; "DISQUS_SITENAME" ] ∧
  Forall (λ k, load pelicanconf !! k = None)
         (filter (λ k, k ∉ bound_names pelicanconf) (bound_names commented_out)) ∧
  filter (λ k, k ∈ bound_names pelicanconf) (bound_names commented_out)
    = [ "PLUGINS"; "STATIC_PATHS"; "ARTICLE_PATHS" ].
Proof.
  split_and!.
  - repeat constructor; by vm_compute.
  - reflexivity.
  - repeat constructor.
  - reflexivity.
Qed.

(** ** Settings that go together *)

(** X9: the favicon lies in the theme's static directory: the path of
    [FAVICON] starts with [THEME_STATIC_DIR] and a slash. *)
Theorem favicon_under_theme_static_dir :
  ∃ dir icon,
    load pelicanconf !! "THEME_STATIC_DIR" = Some (VStr dir) ∧
    load pelicanconf !! "FAVICON" = Some (VStr icon) ∧
    startswith icon (dir ++ "/") = true.
Proof.
  exists "theme", "theme/images/icons/favicon.ico".
  split_and!; reflexivity.
Qed.

(** X10: the twitter link of the social widget is the profile of
    [TWITTER_USERNAME]: its URL is [https://twitter.com/] followed by that
    name. *)
Theorem twitter_link_matches_username :
  ∃ user,
    load pelicanconf !! "TWITTER_USERNAME" = Some (VStr user) ∧
    ((load pelicanconf !! "SOCIAL" ≫= links_of) ≫= link_url "twitter")
      = Some ("https://twitter.com/" ++ user).
Proof. exists "kevinmgivens". split; reflexivity. Qed.


(** X12: no setting lists the same string twice: no plugin, path, template,
    link label or link URL is repeated within a setting's value. *)
Theorem no_setting_repeats_an_entry :
  Forall (λ kv, NoDup (strings_in kv.2)) (setting_values pelicanconf).
Proof. compute_done. Qed.
